(** * The abort-handler launcher of rust/memguard (abort_handler.c)

    The program is 36 lines of C: [main] installs [abort_handler] for
    SIGABRT with [signal] and replaces the process image with [execvp];
    [abort_handler] prints a backtrace on the standard error stream and
    calls [exit(134)].

    The two functions are embedded as trees of C library calls.  What the
    C library and the kernel answer to each call is not part of the
    source; it is gathered in a record [world] that every theorem
    quantifies over.  Running a tree in a world is a total function, so
    every statement below can be evaluated on concrete inputs. *)

From Stdlib Require Import ZArith List String Ascii Bool Lia.
From Stdlib Require Import DecimalString.
Import ListNotations.
Local Open Scope string_scope.
Local Open Scope Z_scope.

(** ** Data *)

(** A return address stored by [backtrace] in its [void *] buffer. *)
Definition addr := Z.

(** Signal numbers used by the program and by the kernel's default
    actions. *)
Definition SIGABRT : Z := 6.
Definition SIGSEGV : Z := 11.

(** The functions of this file that may be passed as a signal handler. *)
Inductive function_name : Type :=
| fn_abort_handler.

(** The second argument of [signal], and the disposition table entry of
    the process for SIGABRT. *)
Inductive sighandler : Type :=
| SIG_DFL
| SIG_IGN
| SIG_FUNC (f : function_name).

(** How the process ended, as [wait] reports it. *)
Inductive wait_status : Type :=
| Exited (code : Z)
| Signaled (sig : Z).

(** The newline character of the C string literals. *)
Definition nl : string := String (ascii_of_nat 10) EmptyString.

(** [%d] and [%zd] on a value in range: its decimal digits. *)
Definition decimal (z : Z) : string := NilZero.string_of_int (Z.to_int z).

(** ** Library calls *)

(** The C library calls the source makes.  [fprintf] carries the text
    after formatting; all four [fprintf] calls of the source write to
    [stderr].  A [char **] is [None] when it is the null pointer. *)
Inductive libc : Type :=
| fprintf_stderr (text : string)
| backtrace (size : nat)
| backtrace_symbols (buffer : list addr)
| free (ptr : option (list string))
| exit (status : Z)
| signal (signum : Z) (handler : sighandler)
| execvp (file : option string) (argv : list string)
| perror (s : string).

(** What a call gives back to its caller.  [exit] gives nothing back;
    [signal] answers [None] for [SIG_ERR]; [execvp] answers only when it
    failed. *)
Definition resp (c : libc) : Type :=
  match c with
  | fprintf_stderr _ => unit
  | backtrace _ => list addr
  | backtrace_symbols _ => option (list string)
  | free _ => unit
  | exit _ => Empty_set
  | signal _ _ => option sighandler
  | execvp _ _ => Z
  | perror _ => unit
  end.

(** A C function body: a tree of library calls.  [Fault] is a read
    through an invalid pointer. *)
Inductive prog (R : Type) : Type :=
| Ret (r : R)
| Call (c : libc) (k : resp c -> prog R)
| Fault.

Arguments Ret {R} r.
Arguments Call {R} c k.
Arguments Fault {R}.

Fixpoint bind {R S : Type} (p : prog R) (f : R -> prog S) : prog S :=
  match p with
  | Ret r => f r
  | Call c k => Call c (fun x => bind (k x) f)
  | Fault => Fault
  end.

Definition call (c : libc) : prog (resp c) := Call c Ret.

Notation "x <- p ;; q" := (bind p (fun x => q))
  (at level 61, p at next level, right associativity).
Notation "p ;; q" := (bind p (fun _ => q))
  (at level 61, right associativity).

(** ** The source *)

(** [strings[i]]: a read through [strings]. *)
Definition index (strings : option (list string)) (i : nat) : prog string :=
  match strings with
  | None => Fault
  | Some l =>
      match nth_error l i with
      | Some s => Ret s
      | None => Fault
      end
  end.

(** [for (size_t i = 0; i < size; i++) fprintf(stderr, "%s\n", strings[i]);]
    with [n] iterations left, so that [i = size - n]. *)
Fixpoint print_frames (strings : option (list string)) (i : nat) (n : nat)
  : prog unit :=
  match n with
  | O => Ret tt
  | S n' =>
      s <- index strings i ;;
      call (fprintf_stderr (s ++ nl)) ;;
      print_frames strings (S i) n'
  end.

Definition banner : string :=
  nl ++ "=== SIGABRT CAUGHT IN C HANDLER ===" ++ nl.

Definition closing_banner : string :=
  "================================" ++ nl ++ nl.

Definition signal_line (sig : Z) : string :=
  "Signal: " ++ decimal sig ++ nl.

Definition count_line (size : nat) : string :=
  "Obtained " ++ decimal (Z.of_nat size) ++ " stack frames." ++ nl.

(** [void abort_handler(int sig)], lines 7 to 27. *)
Definition abort_handler (sig : Z) : prog unit :=
  call (fprintf_stderr banner) ;;
  call (fprintf_stderr (signal_line sig)) ;;
  array <- call (backtrace 100) ;;
  let size := List.length array in
  strings <- call (backtrace_symbols array) ;;
  call (fprintf_stderr (count_line size)) ;;
  print_frames strings 0 size ;;
  call (free strings) ;;
  call (fprintf_stderr closing_banner) ;;
  v <- call (exit 134) ;;
  match v : Empty_set with end.

(** [argv[1]]: the slot after the program name, null when the vector
    ends there. *)
Definition argv1 (argv : list string) : option string := nth_error argv 1.

(** [int main(int argc, char *argv[])], lines 29 to 36.  [argv] is the
    vector up to its terminating null pointer; it holds at least
    [argv[0]], so that [argv + 1] is the vector without its first
    entry. *)
Definition main (argv : list string) : prog Z :=
  call (signal SIGABRT (SIG_FUNC fn_abort_handler)) ;;
  call (execvp (argv1 argv) (skipn 1 argv)) ;;
  call (perror "execvp") ;;
  Ret 1.

Definition body (f : function_name) : Z -> prog unit :=
  match f with
  | fn_abort_handler => abort_handler
  end.

(** ** The process and its environment *)

(** What [execvp] does with a given file and argument vector: it returns
    -1 with [errno] set to [e]; or it reads through an invalid [file]
    pointer; or it replaces the image with a program that, left alone,
    exits with [code]. *)
Inductive exec_result : Type :=
| ExecFails (e : Z)
| ExecFaults
| ExecReplaces (code : Z).

(** The answers of the C library and of the kernel.  None of this is in
    the source: the theorems hold for every world, or name the field
    they depend on. *)
Record world : Type := {
  inherited_ignore : bool;
    (** SIGABRT is ignored when the launcher starts (otherwise default) *)
  signal_succeeds : bool;
    (** [signal] installs the handler (otherwise it returns SIG_ERR) *)
  exec_disposition : sighandler -> sighandler;
    (** what image replacement does to the SIGABRT disposition *)
  exec_outcome : option string -> list string -> exec_result;
  call_stack : list addr;
    (** the return addresses the unwinder finds, innermost first *)
  symbol_of : addr -> string;
    (** the description [backtrace_symbols] gives of an address: a
        symbol name, or the address in hexadecimal when it has none *)
  symbols_allocated : bool;
    (** [backtrace_symbols] obtains its array (otherwise it returns the
        null pointer) *)
  strerror : Z -> string
}.

(** The rule of POSIX [exec]: a caught signal goes back to its default
    action, an ignored one stays ignored. *)
Definition posix_exec_disposition (d : sighandler) : sighandler :=
  match d with
  | SIG_FUNC _ => SIG_DFL
  | d' => d'
  end.

(** The state of the process that the program can change or observe. *)
Record process : Type := {
  disposition : sighandler;
  errno : Z;
  stderr : list string;
    (** the texts this program wrote, oldest first *)
  calls : list libc;
    (** the library calls this program made, oldest first *)
  delivered : option sighandler
    (** the disposition SIGABRT met when it arrived, if it arrived *)
}.

Definition log (c : libc) (m : process) : process :=
  {| disposition := disposition m; errno := errno m; stderr := stderr m;
     calls := calls m ++ [c]; delivered := delivered m |}.

Definition write (text : string) (m : process) : process :=
  {| disposition := disposition m; errno := errno m;
     stderr := stderr m ++ [text];
     calls := calls m; delivered := delivered m |}.

Definition set_disposition (d : sighandler) (m : process) : process :=
  {| disposition := d; errno := errno m; stderr := stderr m;
     calls := calls m; delivered := delivered m |}.

Definition set_errno (e : Z) (m : process) : process :=
  {| disposition := disposition m; errno := e; stderr := stderr m;
     calls := calls m; delivered := delivered m |}.

Definition arrive (m : process) : process :=
  {| disposition := disposition m; errno := errno m; stderr := stderr m;
     calls := calls m; delivered := Some (disposition m) |}.

(** The ways the process can end. *)
Inductive ending : Type :=
| returned_from_main (n : Z)
| called_exit (status : Z)
| killed_by (sig : Z)
| target_exited (code : Z).

Definition status_of (e : ending) : wait_status :=
  match e with
  | returned_from_main n => Exited (Z.land n 255)
  | called_exit status => Exited (Z.land status 255)
  | killed_by sig => Signaled sig
  | target_exited code => Exited (Z.land code 255)
  end.

(** What running a piece of code leads to. *)
Inductive outcome (R : Type) : Type :=
| Returned (r : R) (m : process)
| Ended (e : ending) (m : process)
| Replaced (file : option string) (argv : list string) (code : Z)
           (m : process).

Arguments Returned {R} r m.
Arguments Ended {R} e m.
Arguments Replaced {R} file argv code m.

(** One library call. *)
Definition do_call (w : world) (c : libc) (m : process) : outcome (resp c) :=
  let m' := log c m in
  match c as c0 return outcome (resp c0) with
  | fprintf_stderr text => Returned tt (write text m')
  | backtrace size => Returned (firstn size (call_stack w)) m'
  | backtrace_symbols buffer =>
      Returned (if symbols_allocated w
                then Some (map (symbol_of w) buffer)
                else None) m'
  | free _ => Returned tt m'
  | exit status => Ended (called_exit status) m'
  | signal signum handler =>
      if signal_succeeds w
      then Returned (Some (disposition m))
             (if signum =? SIGABRT then set_disposition handler m' else m')
      else Returned None m'
  | execvp file argv =>
      match exec_outcome w file argv with
      | ExecFails e => Returned (-1) (set_errno e m')
      | ExecFaults => Ended (killed_by SIGSEGV) m'
      | ExecReplaces code =>
          Replaced file argv code
            (set_disposition (exec_disposition w (disposition m')) m')
      end
  | perror s =>
      Returned tt (write (s ++ ": " ++ strerror w (errno m) ++ nl) m')
  end.

(** Running code during which SIGABRT does not arrive. *)
Fixpoint run {R : Type} (w : world) (p : prog R) (m : process) : outcome R :=
  match p with
  | Ret r => Returned r m
  | Fault => Ended (killed_by SIGSEGV) m
  | Call c k =>
      match do_call w c m with
      | Returned x m' => run w (k x) m'
      | Ended e m' => Ended e m'
      | Replaced file argv code m' => Replaced file argv code m'
      end
  end.

(** SIGABRT arrives.  The default action kills the process; a handler
    runs with the signal number as its argument, the signal being blocked
    until it returns. *)
Definition deliver (w : world) (m : process) : outcome unit :=
  match disposition m with
  | SIG_DFL => Ended (killed_by SIGABRT) (arrive m)
  | SIG_IGN => Returned tt (arrive m)
  | SIG_FUNC f => run w (body f SIGABRT) (arrive m)
  end.

(** When SIGABRT arrives: never, or after the process has taken [n]
    steps.  A step is a library call of [main], the return of [main], or
    the whole run of the target program. *)
Definition schedule := option nat.

Definition due (s : schedule) : bool :=
  match s with
  | Some O => true
  | _ => false
  end.

Definition tick (s : schedule) : schedule :=
  match s with
  | Some (S n) => Some n
  | _ => None
  end.

Definition interrupt (w : world) (s : schedule) (m : process) : outcome unit :=
  if due s then deliver w m else Returned tt m.

(** The end of a run of the launcher. *)
Record final : Type := {
  how : ending;
  image : option (option string * list string);
    (** the file and argument vector of the program that replaced the
        launcher, if one did *)
  at_end : process
}.

(** The target program: it exits with its own code unless SIGABRT ends
    the process first. *)
Definition run_target (w : world) (s : schedule) (file : option string)
    (argv : list string) (code : Z) (m : process) : final :=
  match interrupt w s m with
  | Returned _ m' =>
      {| how := target_exited code; image := Some (file, argv);
         at_end := m' |}
  | Ended e m' => {| how := e; image := Some (file, argv); at_end := m' |}
  | Replaced file' argv' code' m' =>
      {| how := target_exited code'; image := Some (file', argv');
         at_end := m' |}
  end.

(** The launcher: [main] run to the end of the process, SIGABRT arriving
    as scheduled. *)
Fixpoint run_main (w : world) (s : schedule) (p : prog Z) (m : process)
  {struct p} : final :=
  match interrupt w s m with
  | Ended e m' => {| how := e; image := None; at_end := m' |}
  | Replaced file argv code m' =>
      {| how := target_exited code; image := Some (file, argv);
         at_end := m' |}
  | Returned _ m1 =>
      match p with
      | Ret n => {| how := returned_from_main n; image := None; at_end := m1 |}
      | Fault => {| how := killed_by SIGSEGV; image := None; at_end := m1 |}
      | Call c k =>
          match do_call w c m1 with
          | Returned x m2 => run_main w (tick s) (k x) m2
          | Ended e m2 => {| how := e; image := None; at_end := m2 |}
          | Replaced file argv code m2 =>
              run_target w (tick s) file argv code m2
          end
      end
  end.

Definition start (w : world) : process :=
  {| disposition := if inherited_ignore w then SIG_IGN else SIG_DFL;
     errno := 0; stderr := []; calls := []; delivered := None |}.

(** [launcher argv[1] argv[2] ...] started as [argv[0]]. *)
Definition launcher (w : world) (s : schedule) (argv : list string) : final :=
  run_main w s (main argv) (start w).

Definition exit_status (r : final) : wait_status := status_of (how r).

(** ** Vocabulary of the statements *)

(** [fprintf(stderr, ...)] for each text in turn. *)
Definition emit (texts : list string) (m : process) : process :=
  fold_left (fun m' t => write t (log (fprintf_stderr t) m')) texts m.

(** The texts written and the calls made between two states of the
    process. *)
Definition written (m m' : process) : list string :=
  skipn (List.length (stderr m)) (stderr m').

Definition called (m m' : process) : list libc :=
  skipn (List.length (calls m)) (calls m').

(** The line the handler prints for a frame. *)
Definition frame_line (w : world) (a : addr) : string := symbol_of w a ++ nl.

(** The frames [backtrace(array, 100)] stores. *)
Definition captured (w : world) : list addr := firstn 100 (call_stack w).

(** What [backtrace_symbols] answers for them. *)
Definition symbols (w : world) : option (list string) :=
  if symbols_allocated w then Some (map (symbol_of w) (captured w)) else None.

(** The process once the handler has printed its first three lines. *)
Definition headed (w : world) (sig : Z) (m : process) : process :=
  emit [count_line (List.length (captured w))]
    (log (backtrace_symbols (captured w))
       (log (backtrace 100) (emit [banner; signal_line sig] m))).

(** The process once the handler has called [exit]. *)
Definition reported (w : world) (sig : Z) (m : process) : process :=
  log (exit 134)
    (emit [closing_banner]
       (log (free (symbols w))
          (emit (map (frame_line w) (captured w)) (headed w sig m)))).

(** The process a piece of code leaves behind. *)
Definition after {R : Type} (o : outcome R) : process :=
  match o with
  | Returned _ m => m
  | Ended _ m => m
  | Replaced _ _ _ m => m
  end.

Definition string_in (s : string) (l : list string) : bool :=
  existsb (String.eqb s) l.

(** The handler's opening banner is on the standard error stream. *)
Definition banner_shown (m : process) : bool := string_in banner (stderr m).

(** SIGABRT arrived while the process was alive. *)
Definition abort_delivered (m : process) : bool :=
  match delivered m with
  | Some _ => true
  | None => false
  end.

(** SIGABRT arrived and met the handler of this file. *)
Definition abort_caught (m : process) : bool :=
  match delivered m with
  | Some (SIG_FUNC fn_abort_handler) => true
  | _ => false
  end.

(** Safety of the library calls in a signal handler, as the C library
    documents it: POSIX lists [signal] among the async-signal-safe
    functions and none of the others; the GNU manual marks [fprintf],
    [perror], [exit], [free], [execvp], [backtrace] and
    [backtrace_symbols] AS-Unsafe. *)
Definition async_signal_safe (c : libc) : bool :=
  match c with
  | signal _ _ => true
  | _ => false
  end.

(** The two operations the specification accepts in the handler without
    asking the C library for their safety: writing text to the standard
    error stream and walking the stack. *)
Definition tolerated (c : libc) : bool :=
  match c with
  | fprintf_stderr _ => true
  | backtrace _ => true
  | c' => async_signal_safe c'
  end.

(** ** A concrete host

    A POSIX system on which [/bin/sh] and [/bin/false] exist, every other
    path fails with ENOENT (2), and the unwinder finds three frames that
    have no symbol.  The two flags say whether [signal] installs the
    handler and whether [backtrace_symbols] obtains its array. *)
Definition host (registers allocates : bool) : world :=
  {| inherited_ignore := false;
     signal_succeeds := registers;
     exec_disposition := posix_exec_disposition;
     exec_outcome := fun file _ =>
       match file with
       | None => ExecFaults
       | Some f =>
           if String.eqb f "/bin/sh" then ExecReplaces 0
           else if String.eqb f "/bin/false" then ExecReplaces 1
           else ExecFails 2
       end;
     call_stack := [4198966; 4199120; 4198750];
     symbol_of := fun a => "[" ++ decimal a ++ "]";
     symbols_allocated := allocates;
     strerror := fun e =>
       if e =? 2 then "No such file or directory" else "Unknown error" |}.

(** The same world with the answer of [signal] chosen. *)
Definition registering (b : bool) (w : world) : world :=
  {| inherited_ignore := inherited_ignore w;
     signal_succeeds := b;
     exec_disposition := exec_disposition w;
     exec_outcome := exec_outcome w;
     call_stack := call_stack w;
     symbol_of := symbol_of w;
     symbols_allocated := symbols_allocated w;
     strerror := strerror w |}.

(** The line [perror("execvp")] writes for an error number. *)
Definition perror_line (w : world) (e : Z) : string :=
  "execvp" ++ ": " ++ strerror w e ++ nl.

(** [launcher /bin/sh -c "kill -ABRT $$"] and [launcher /no/such/path]. *)
Definition aborting_command : list string :=
  ["launcher"; "/bin/sh"; "-c"; "kill -ABRT $$"].

Definition missing_command : list string :=
  ["launcher"; "/no/such/path"].

(** The same world with the stack the unwinder finds chosen, and with
    the inherited disposition of SIGABRT chosen. *)
Definition unwinding (stack : list addr) (w : world) : world :=
  {| inherited_ignore := inherited_ignore w;
     signal_succeeds := signal_succeeds w;
     exec_disposition := exec_disposition w;
     exec_outcome := exec_outcome w;
     call_stack := stack;
     symbol_of := symbol_of w;
     symbols_allocated := symbols_allocated w;
     strerror := strerror w |}.

Definition inheriting (ignore : bool) (w : world) : world :=
  {| inherited_ignore := ignore;
     signal_succeeds := signal_succeeds w;
     exec_disposition := exec_disposition w;
     exec_outcome := exec_outcome w;
     call_stack := call_stack w;
     symbol_of := symbol_of w;
     symbols_allocated := symbols_allocated w;
     strerror := strerror w |}.

(** A stack of 150 frames. *)
Definition deep_stack : list addr :=
  map (fun n => 4198400 + Z.of_nat n) (seq 0 150).

(** [launcher /bin/false]. *)
Definition failing_command : list string := ["launcher"; "/bin/false"].

(** The calls of [main]. *)
Definition is_execvp (c : libc) : bool :=
  match c with
  | execvp _ _ => true
  | _ => false
  end.

Definition is_signal (c : libc) : bool :=
  match c with
  | signal _ _ => true
  | _ => false
  end.

Definition is_perror (c : libc) : bool :=
  match c with
  | perror _ => true
  | _ => false
  end.

(** ** The library calls, one at a time *)

Section Calls.

Variable w : world.

Lemma run_bind {R S : Type} (p : prog R) (f : R -> prog S) (m : process) :
  run w (bind p f) m =
  match run w p m with
  | Returned r m' => run w (f r) m'
  | Ended e m' => Ended e m'
  | Replaced file argv code m' => Replaced file argv code m'
  end.
Proof.
  revert m.
  induction p as [r | c k IH | ]; intro m; cbn [bind run]; try reflexivity.
  destruct (do_call w c m) as [x m' | e m' | file argv code m']; auto.
Qed.

Lemma run_fprintf {R : Type} (text : string) (k : unit -> prog R)
    (m : process) :
  run w (Call (fprintf_stderr text) k) m = run w (k tt) (emit [text] m).
Proof. reflexivity. Qed.

Lemma emit_app (a b : list string) (m : process) :
  emit (a ++ b)%list m = emit b (emit a m).
Proof. unfold emit. apply fold_left_app. Qed.

Lemma stderr_emit (texts : list string) (m : process) :
  stderr (emit texts m) = (stderr m ++ texts)%list.
Proof.
  revert m.
  induction texts as [| t ts IH]; intro m; cbn.
  - now rewrite app_nil_r.
  - change (stderr (emit ts (write t (log (fprintf_stderr t) m)))
            = (stderr m ++ t :: ts)%list).
    rewrite IH. cbn. now rewrite <- app_assoc.
Qed.

Lemma calls_emit (texts : list string) (m : process) :
  calls (emit texts m) = (calls m ++ map fprintf_stderr texts)%list.
Proof.
  revert m.
  induction texts as [| t ts IH]; intro m; cbn.
  - now rewrite app_nil_r.
  - change (calls (emit ts (write t (log (fprintf_stderr t) m)))
            = (calls m ++ fprintf_stderr t :: map fprintf_stderr ts)%list).
    rewrite IH. cbn. now rewrite <- app_assoc.
Qed.

Lemma disposition_emit (texts : list string) (m : process) :
  disposition (emit texts m) = disposition m.
Proof.
  revert m. induction texts as [| t ts IH]; intro m; cbn; auto.
  change (disposition (emit ts (write t (log (fprintf_stderr t) m)))
          = disposition m).
  now rewrite IH.
Qed.

Lemma delivered_emit (texts : list string) (m : process) :
  delivered (emit texts m) = delivered m.
Proof.
  revert m. induction texts as [| t ts IH]; intro m; cbn; auto.
  change (delivered (emit ts (write t (log (fprintf_stderr t) m)))
          = delivered m).
  now rewrite IH.
Qed.

Lemma skipn_nth_error {A : Type} (l : list A) (i : nat) (x : A) :
  nth_error l i = Some x -> skipn i l = x :: skipn (S i) l.
Proof.
  revert i.
  induction l as [| y l IH]; intros [| i] H; cbn in H; try discriminate.
  - now injection H as ->.
  - change (skipn i l = x :: skipn (S i) l). auto.
Qed.

(** The loop over a valid array prints the remaining strings in order. *)
Lemma run_print_frames (l : list string) (n i : nat) (m : process) :
  (i + n = List.length l)%nat ->
  run w (print_frames (Some l) i n) m =
  Returned tt (emit (map (fun s => s ++ nl) (skipn i l)) m).
Proof.
  revert i m.
  induction n as [| n IH]; intros i m Hlen; cbn [print_frames].
  - rewrite skipn_all2 by lia. reflexivity.
  - destruct (nth_error l i) as [s |] eqn:Hs.
    + unfold index. rewrite Hs. cbn [bind call].
      rewrite run_fprintf, IH by lia.
      now rewrite (skipn_nth_error _ _ _ Hs).
    + apply nth_error_None in Hs. lia.
Qed.

(** The loop over a null array stops at its first read. *)
Lemma run_print_frames_null {R : Type} (n i : nat) (k : unit -> prog R)
    (m : process) :
  run w (bind (print_frames None i (S n)) k) m = Ended (killed_by SIGSEGV) m.
Proof. reflexivity. Qed.

(** The handler, call by call: it reaches [exit(134)] when
    [backtrace_symbols] gave an array or no frame was captured, and reads
    through the null array otherwise. *)
Lemma run_abort_handler (sig : Z) (m : process) :
  run w (abort_handler sig) m =
  match symbols w, captured w with
  | None, _ :: _ => Ended (killed_by SIGSEGV) (headed w sig m)
  | _, _ => Ended (called_exit 134) (reported w sig m)
  end.
Proof.
  unfold abort_handler.
  cbn [bind call run do_call].
  fold (captured w). fold (symbols w).
  rewrite run_bind.
  unfold reported, headed, symbols.
  destruct (symbols_allocated w).
  - rewrite run_print_frames by now rewrite length_map.
    cbn [skipn run bind do_call]. rewrite map_map. reflexivity.
  - destruct (captured w) as [| a frames]; reflexivity.
Qed.

Lemma stderr_headed (sig : Z) (m : process) :
  stderr (headed w sig m) =
  (stderr m ++ [banner; signal_line sig;
                count_line (List.length (captured w))])%list.
Proof.
  unfold headed. rewrite stderr_emit. cbn [stderr log].
  rewrite stderr_emit, <- app_assoc. reflexivity.
Qed.

Lemma stderr_reported (sig : Z) (m : process) :
  stderr (reported w sig m) =
  (stderr m ++ [banner; signal_line sig;
                count_line (List.length (captured w))]
     ++ map (frame_line w) (captured w) ++ [closing_banner])%list.
Proof.
  unfold reported. cbn [stderr log]. rewrite stderr_emit. cbn [stderr log].
  rewrite stderr_emit, stderr_headed, <- !app_assoc. reflexivity.
Qed.

Lemma calls_headed (sig : Z) (m : process) :
  calls (headed w sig m) =
  (calls m ++ [fprintf_stderr banner; fprintf_stderr (signal_line sig);
               backtrace 100; backtrace_symbols (captured w);
               fprintf_stderr (count_line (List.length (captured w)))])%list.
Proof.
  unfold headed. rewrite calls_emit. cbn [calls log].
  rewrite calls_emit, <- !app_assoc. reflexivity.
Qed.

Lemma calls_reported (sig : Z) (m : process) :
  calls (reported w sig m) =
  (calls m ++ [fprintf_stderr banner; fprintf_stderr (signal_line sig);
               backtrace 100; backtrace_symbols (captured w);
               fprintf_stderr (count_line (List.length (captured w)))]
     ++ map fprintf_stderr (map (frame_line w) (captured w))
     ++ [free (symbols w); fprintf_stderr closing_banner; exit 134])%list.
Proof.
  unfold reported. cbn [calls log]. rewrite calls_emit. cbn [calls log].
  rewrite calls_emit, calls_headed, <- !app_assoc. reflexivity.
Qed.

Lemma delivered_headed (sig : Z) (m : process) :
  delivered (headed w sig m) = delivered m.
Proof.
  unfold headed. rewrite delivered_emit. cbn [delivered log].
  apply delivered_emit.
Qed.

Lemma delivered_reported (sig : Z) (m : process) :
  delivered (reported w sig m) = delivered m.
Proof.
  unfold reported. cbn [delivered log]. rewrite delivered_emit.
  cbn [delivered log]. now rewrite delivered_emit, delivered_headed.
Qed.

Lemma length_captured : (List.length (captured w) <= 100)%nat.
Proof. unfold captured. rewrite length_firstn. lia. Qed.

End Calls.

Lemma written_app (m m' : process) (texts : list string) :
  stderr m' = (stderr m ++ texts)%list -> written m m' = texts.
Proof.
  intro H. unfold written. rewrite H, skipn_app, skipn_all, Nat.sub_diag.
  reflexivity.
Qed.

Lemma called_app (m m' : process) (cs : list libc) :
  calls m' = (calls m ++ cs)%list -> called m m' = cs.
Proof.
  intro H. unfold called. rewrite H, skipn_app, skipn_all, Nat.sub_diag.
  reflexivity.
Qed.

Lemma string_in_app (s : string) (a b : list string) :
  string_in s (a ++ b) = string_in s a || string_in s b.
Proof. apply existsb_app. Qed.

Lemma captured_nil (w : world) : captured w = [] <-> call_stack w = [].
Proof.
  unfold captured. destruct (call_stack w); cbn; split; congruence.
Qed.

(** ** The handler *)

(** When [backtrace_symbols] gave its array, the handler prints the whole
    report, frames in the order the unwinder found them, and calls
    [exit(134)]. *)
Lemma abort_handler_report (w : world) (sig : Z) (m : process) :
  symbols_allocated w = true ->
  run w (abort_handler sig) m = Ended (called_exit 134) (reported w sig m) /\
  written m (reported w sig m) =
    ([banner; signal_line sig; count_line (List.length (captured w))]
       ++ map (frame_line w) (captured w) ++ [closing_banner])%list /\
  status_of (called_exit 134) = Exited 134.
Proof.
  intro Hsym. rewrite run_abort_handler. unfold symbols. rewrite Hsym.
  repeat split.
  apply written_app, stderr_reported.
Qed.

(** The handler never hands control back to the code it interrupted. *)
Lemma abort_handler_never_returns (w : world) (sig : Z) (m m' : process)
    (r : unit) :
  run w (abort_handler sig) m <> Returned r m'.
Proof.
  rewrite run_abort_handler.
  destruct (symbols w) as [l |]; [| destruct (captured w)]; discriminate.
Qed.

(** C2, at the input where it fails.  When [backtrace_symbols] returns
    the null pointer and at least one frame was captured, the handler
    prints the banner, the signal line and the frame count, and then the
    read of [strings[0]] ends the process: no frame line, no closing
    banner and no [exit(134)]. *)
Theorem abort_handler_null_symbols (w : world) (sig : Z) (m : process) :
  symbols_allocated w = false ->
  call_stack w <> [] ->
  run w (abort_handler sig) m = Ended (killed_by SIGSEGV) (headed w sig m) /\
  written m (headed w sig m) =
    [banner; signal_line sig; count_line (List.length (captured w))] /\
  ~ In (exit 134) (called m (headed w sig m)).
Proof.
  intros Hsym Hstack. rewrite run_abort_handler. unfold symbols.
  rewrite Hsym.
  destruct (captured w) as [| a frames] eqn:Hcap.
  - apply captured_nil in Hcap. contradiction.
  - rewrite <- Hcap. split; [reflexivity |]. split.
    + apply written_app, stderr_headed.
    + rewrite (called_app _ _ _ (calls_headed w sig m)).
      cbn. intros [H | [H | [H | [H | [H | []]]]]]; discriminate.
Qed.

Lemma abort_handler_null_symbols_witness :
  run (host true false) (abort_handler 6) (start (host true false)) =
    Ended (killed_by SIGSEGV) (headed (host true false) 6
                                 (start (host true false))) /\
  written (start (host true false))
    (headed (host true false) 6 (start (host true false))) =
    [banner; signal_line 6; count_line 3] /\
  ~ In (exit 134)
      (called (start (host true false))
         (headed (host true false) 6 (start (host true false)))).
Proof.
  apply (abort_handler_null_symbols (host true false) 6
           (start (host true false))).
  - reflexivity.
  - discriminate.
Defined.

(** C5, over every outcome of the capture.  The handler ends the process
    with [exit(134)] when [backtrace_symbols] gave its array or no frame
    was captured; when it gave the null pointer for a captured frame, the
    handler itself faults, as on the host whose allocation fails. *)
Theorem abort_handler_ending (w : world) (sig : Z) (m : process) :
  (exists m',
     run w (abort_handler sig) m =
     Ended (match symbols_allocated w, call_stack w with
            | false, _ :: _ => killed_by SIGSEGV
            | _, _ => called_exit 134
            end) m') /\
  (exists m',
     run (host true false) (abort_handler sig) m =
     Ended (killed_by SIGSEGV) m').
Proof.
  split.
  - rewrite run_abort_handler. unfold symbols.
    destruct (symbols_allocated w); [eauto |].
    destruct (captured w) as [| a frames] eqn:Hcap.
    + apply captured_nil in Hcap. rewrite Hcap. eauto.
    + unfold captured in Hcap.
      destruct (call_stack w); [discriminate | eauto].
  - rewrite run_abort_handler. cbn. eauto.
Qed.

(** C9.  In every run of the handler the frame count it reports is the
    number of frames [backtrace] stored in its 100-entry buffer, at most
    100, and the frame lines it prints describe a prefix of those frames,
    so there are at most 100 of them. *)
Theorem backtrace_at_most_100 (w : world) (sig : Z) (m : process) :
  exists (n : nat) (lines tail : list string),
    written m (after (run w (abort_handler sig) m)) =
      ([banner; signal_line sig; count_line n] ++ lines ++ tail)%list /\
    n = List.length (firstn 100 (call_stack w)) /\
    (n <= 100)%nat /\
    lines = map (frame_line w) (firstn (List.length lines) (call_stack w)) /\
    (List.length lines <= n)%nat /\
    (tail = [] \/ tail = [closing_banner]) /\
    In (backtrace 100) (called m (after (run w (abort_handler sig) m))).
Proof.
  exists (List.length (captured w)).
  rewrite run_abort_handler.
  fold (captured w).
  assert (Hfull :
    map (frame_line w) (captured w) =
    map (frame_line w)
      (firstn (List.length (map (frame_line w) (captured w)))
         (call_stack w))).
  { rewrite length_map. unfold captured.
    now rewrite length_firstn, <- firstn_firstn, firstn_all. }
  assert (Hmid : forall (rest : list libc),
    In (backtrace 100)
      ([fprintf_stderr banner; fprintf_stderr (signal_line sig);
        backtrace 100; backtrace_symbols (captured w);
        fprintf_stderr (count_line (List.length (captured w)))]
         ++ rest)%list).
  { intro rest. cbn. auto. }
  pose proof (length_captured w) as Hle.
  destruct (symbols w) as [l |] eqn:Hsym; [| destruct (captured w) eqn:Hcap].
  - exists (map (frame_line w) (captured w)), [closing_banner].
    cbn [after].
    rewrite (written_app _ _ _ (stderr_reported w sig m)).
    rewrite (called_app _ _ _ (calls_reported w sig m)).
    rewrite length_map.
    repeat split; auto.
    rewrite length_map in Hfull. exact Hfull.
  - exists [], [closing_banner].
    cbn [after].
    rewrite (written_app _ _ _ (stderr_reported w sig m)).
    rewrite (called_app _ _ _ (calls_reported w sig m)).
    rewrite Hcap. cbn. repeat split; auto; lia.
  - exists [], [].
    cbn [after].
    rewrite (written_app _ _ _ (stderr_headed w sig m)).
    rewrite (called_app _ _ _ (calls_headed w sig m)).
    rewrite Hcap. cbn. repeat split; auto; lia.
Qed.

Lemma banner_shown_headed (w : world) (sig : Z) (m : process) :
  banner_shown (headed w sig m) = true.
Proof.
  unfold banner_shown. rewrite stderr_headed, string_in_app.
  apply orb_true_iff. right. reflexivity.
Qed.

Lemma banner_shown_reported (w : world) (sig : Z) (m : process) :
  banner_shown (reported w sig m) = true.
Proof.
  unfold banner_shown. rewrite stderr_reported, string_in_app.
  apply orb_true_iff. right. reflexivity.
Qed.

Lemma abort_caught_headed (w : world) (sig : Z) (m : process) :
  abort_caught (headed w sig m) = abort_caught m.
Proof. unfold abort_caught. now rewrite delivered_headed. Qed.

Lemma abort_caught_reported (w : world) (sig : Z) (m : process) :
  abort_caught (reported w sig m) = abort_caught m.
Proof. unfold abort_caught. now rewrite delivered_reported. Qed.

Lemma tolerated_fprintf (texts : list string) :
  filter (fun c => negb (tolerated c)) (map fprintf_stderr texts) = [].
Proof. induction texts as [| t ts IH]; cbn; auto. Qed.

Lemma unsafe_fprintf (texts : list string) (c : libc) :
  In c (map fprintf_stderr texts) -> async_signal_safe c = false.
Proof. intro H. apply in_map_iff in H as (t & <- & _). reflexivity. Qed.

(** C4, as the code has it.  In every run of the handler no library
    call it makes is async-signal-safe; besides writing to the standard
    error stream and walking the stack it calls [backtrace_symbols], and
    then [free] and [exit] when it gets that far.  What the source
    bounds is the number of calls, at most 108, and the number of frames
    handed to [backtrace_symbols], at most 100. *)
Theorem abort_handler_operations (w : world) (sig : Z) (m : process) :
  let cs := called m (after (run w (abort_handler sig) m)) in
  (forall c, In c cs -> async_signal_safe c = false) /\
  (filter (fun c => negb (tolerated c)) cs =
     [backtrace_symbols (captured w); free (symbols w); exit 134] \/
   filter (fun c => negb (tolerated c)) cs =
     [backtrace_symbols (captured w)]) /\
  (List.length (captured w) <= 100)%nat /\
  (List.length cs <= 108)%nat.
Proof.
  intro cs. subst cs. rewrite run_abort_handler.
  pose proof (length_captured w) as Hle.
  destruct (symbols w) as [l |] eqn:Hsym;
    [| destruct (captured w) as [| a frames] eqn:Hcap]; cbn [after].
  1, 2: rewrite (called_app _ _ _ (calls_reported w sig m)).
  3: rewrite (called_app _ _ _ (calls_headed w sig m)).
  1, 2: rewrite ?Hcap, ?Hsym; split; [| split; [| split]];
    [ intros c Hc; apply in_app_or in Hc as [Hc | Hc];
      [ cbn in Hc; intuition (subst; reflexivity)
      | apply in_app_or in Hc as [Hc | Hc];
        [ eapply unsafe_fprintf; eassumption
        | cbn in Hc; intuition (subst; reflexivity) ] ]
    | left; rewrite !filter_app, tolerated_fprintf; reflexivity
    | assumption
    | rewrite !length_app, !length_map; cbn [List.length] in *; lia ].
  rewrite Hcap.
  split; [| split; [| split]].
  - intros c Hc. cbn in Hc. intuition (subst; reflexivity).
  - right. reflexivity.
  - exact Hle.
  - cbn [List.length]. lia.
Qed.

(** C4, as stated, fails on the host where everything succeeds: the
    calls of the handler are not all async-signal-safe, not even when
    writing to the standard error stream and walking the stack are
    accepted: [backtrace_symbols], [free] and [exit] are among them. *)
Lemma abort_handler_operations_unsafe :
  let m := start (host true true) in
  let cs := called m (after (run (host true true) (abort_handler 6) m)) in
  forallb async_signal_safe cs = false /\
  forallb tolerated cs = false /\
  In (exit 134) cs.
Proof. vm_compute. intuition. Qed.

(** ** The launcher *)

(** The cases of a schedule that the launcher can tell apart: it takes at
    most four steps. *)
Ltac schedule_cases s :=
  destruct s as [[| [| [| [| ?]]]] |].

(** Runs [main] up to the points where the world decides. *)
Ltac launch :=
  repeat progress
    (unfold launcher, main, deliver, start, run_target;
     cbn [bind call run_main run_target interrupt due tick do_call body
          log write set_disposition set_errno arrive
          disposition errno stderr calls delivered how image at_end];
     change (SIGABRT =? SIGABRT) with true;
     cbn iota).

(** Splits on the next answer of the world that the run depends on. *)
Ltac ask w :=
  match goal with
  | |- context [signal_succeeds w] => destruct (signal_succeeds w)
  | |- context [inherited_ignore w] => destruct (inherited_ignore w)
  | |- context [run w (abort_handler ?sig) ?m] =>
      rewrite (run_abort_handler w sig m)
  | |- context [match symbols w with _ => _ end] => destruct (symbols w)
  | |- context [match captured w with _ => _ end] => destruct (captured w)
  | |- context [match exec_outcome w ?f ?a with _ => _ end] =>
      destruct (exec_outcome w f a)
  | |- context [match exec_disposition w ?d with _ => _ end] =>
      destruct (exec_disposition w d) as [| | []]
  end.

Ltac launch_all w := launch; repeat (ask w; launch).

(** C6, as the code has it.  The banner is on the standard error stream
    exactly when SIGABRT arrived and met [abort_handler]; it is never
    there on a run that ends by the target's own exit or by the return
    of [main] after a failed [execvp]. *)
Theorem banner_iff_abort_caught (w : world) (s : schedule)
    (argv : list string) :
  let r := launcher w s argv in
  banner_shown (at_end r) = abort_caught (at_end r) /\
  (abort_caught (at_end r) = true -> abort_delivered (at_end r) = true) /\
  (forall code, how r = target_exited code -> banner_shown (at_end r) = false) /\
  (forall n, how r = returned_from_main n -> banner_shown (at_end r) = false).
Proof.
  intro r. subst r.
  assert (Hcaught : forall m : process,
            abort_caught m = true -> abort_delivered m = true).
  { intros m. unfold abort_caught, abort_delivered.
    destruct (delivered m); [reflexivity | discriminate]. }
  split; [| split; [apply Hcaught | split]].
  all: schedule_cases s; launch_all w;
    rewrite ?banner_shown_headed, ?banner_shown_reported,
      ?abort_caught_headed, ?abort_caught_reported;
    try reflexivity; try discriminate.
Qed.

(** C6, as stated, fails where [signal] could not install the handler:
    SIGABRT arrives between [signal] and [execvp], its default action
    ends the process, and no banner is written.  It fails in the same
    way when SIGABRT arrives before [main] has called [signal]. *)
Lemma abort_delivered_without_banner :
  let r := launcher (host false true) (Some 1%nat) aborting_command in
  let r0 := launcher (host true true) (Some 0%nat) aborting_command in
  (abort_delivered (at_end r) = true /\
   banner_shown (at_end r) = false /\
   how r = killed_by SIGABRT) /\
  (abort_delivered (at_end r0) = true /\
   banner_shown (at_end r0) = false /\
   how r0 = killed_by SIGABRT).
Proof. vm_compute. auto. Qed.

Lemma abort_delivered_headed (w : world) (sig : Z) (m : process) :
  abort_delivered (headed w sig m) = abort_delivered m.
Proof. unfold abort_delivered. now rewrite delivered_headed. Qed.

Lemma abort_delivered_reported (w : world) (sig : Z) (m : process) :
  abort_delivered (reported w sig m) = abort_delivered m.
Proof. unfold abort_delivered. now rewrite delivered_reported. Qed.

(** Unless SIGABRT arrives first, the first two library calls of the
    launcher are [signal] and [execvp] on [argv[1]] and [argv + 1],
    whatever [signal] answered. *)
Lemma launcher_reaches_execvp (w : world) (s : schedule)
    (argv : list string) :
  due s = false ->
  due (tick s) = false ->
  firstn 2 (calls (at_end (launcher w s argv))) =
    [signal SIGABRT (SIG_FUNC fn_abort_handler);
     execvp (argv1 argv) (skipn 1 argv)].
Proof.
  intros H0 H1. revert H0 H1.
  schedule_cases s; cbn [due tick]; try discriminate; intros _ _;
    launch_all w; rewrite ?calls_headed, ?calls_reported;
    cbn [calls arrive log write set_disposition set_errno app firstn];
    reflexivity.
Qed.

(** A SIGABRT that meets the handler ends the process with status 134
    when [backtrace_symbols] gives its array. *)
Lemma caught_abort_exits_134 (w : world) (s : schedule)
    (argv : list string) :
  symbols_allocated w = true ->
  abort_caught (at_end (launcher w s argv)) = true ->
  how (launcher w s argv) = called_exit 134 /\
  exit_status (launcher w s argv) = Exited 134 /\
  banner_shown (at_end (launcher w s argv)) = true.
Proof.
  intros Hsym H.
  assert (Hs : symbols w <> None)
    by (unfold symbols; rewrite Hsym; discriminate).
  revert Hs H. unfold exit_status.
  schedule_cases s; launch_all w;
    rewrite ?abort_caught_headed, ?abort_caught_reported,
      ?banner_shown_reported;
    cbn; intros Hs H; try discriminate H; try (now destruct Hs); auto.
Qed.

(** C1, at the input where it fails.  Under the rule of POSIX for image
    replacement the handler that [main] installed is gone once [execvp]
    has succeeded: when the target then raises SIGABRT, the default
    action ends the process, [abort_handler] does not run and nothing is
    reported. *)
Theorem target_abort_not_caught (w : world) (argv : list string)
    (code : Z) :
  signal_succeeds w = true ->
  (forall d, exec_disposition w d = posix_exec_disposition d) ->
  exec_outcome w (argv1 argv) (skipn 1 argv) = ExecReplaces code ->
  let r := launcher w (Some 2%nat) argv in
  image r = Some (argv1 argv, skipn 1 argv) /\
  abort_delivered (at_end r) = true /\
  abort_caught (at_end r) = false /\
  stderr (at_end r) = [] /\
  how r = killed_by SIGABRT /\
  exit_status r = Signaled SIGABRT.
Proof.
  intros Hsig Hposix Hexec r. subst r. unfold exit_status.
  launch. rewrite Hsig. launch. rewrite Hexec. launch.
  rewrite Hposix. cbn [posix_exec_disposition]. launch.
  destruct (inherited_ignore w); repeat split.
Qed.

Lemma target_abort_not_caught_witness :
  let r := launcher (host true true) (Some 2%nat) aborting_command in
  image r = Some (Some "/bin/sh", ["/bin/sh"; "-c"; "kill -ABRT $$"]) /\
  abort_delivered (at_end r) = true /\
  abort_caught (at_end r) = false /\
  stderr (at_end r) = [] /\
  how r = killed_by SIGABRT /\
  exit_status r = Signaled SIGABRT.
Proof.
  apply (target_abort_not_caught (host true true) aborting_command 0).
  - reflexivity.
  - intro d. reflexivity.
  - reflexivity.
Defined.

(** C3.  When [execvp] fails and no SIGABRT arrives, [execvp] returns to
    [main], [perror] writes one line made of the word execvp and the
    system's description of the error, and the process ends with status
    1, which is not 134; no other program was started. *)
Theorem launch_failure_exits_1 (w : world) (s : schedule)
    (argv : list string) (e : Z) :
  exec_outcome w (argv1 argv) (skipn 1 argv) = ExecFails e ->
  abort_delivered (at_end (launcher w s argv)) = false ->
  let r := launcher w s argv in
  how r = returned_from_main 1 /\
  exit_status r = Exited 1 /\
  exit_status r <> Exited 134 /\
  image r = None /\
  stderr (at_end r) = [perror_line w e] /\
  calls (at_end r) =
    [signal SIGABRT (SIG_FUNC fn_abort_handler);
     execvp (argv1 argv) (skipn 1 argv); perror "execvp"].
Proof.
  intros Hexec Hquiet r. subst r. revert Hexec Hquiet.
  unfold exit_status, perror_line.
  schedule_cases s; launch_all w;
    rewrite ?abort_delivered_headed, ?abort_delivered_reported;
    intros Hexec Hquiet; try discriminate Hexec; try discriminate Hquiet;
    injection Hexec as <-; repeat split; discriminate.
Qed.

Lemma launch_failure_exits_1_witness :
  let r := launcher (host true true) None missing_command in
  how r = returned_from_main 1 /\
  exit_status r = Exited 1 /\
  exit_status r <> Exited 134 /\
  image r = None /\
  stderr (at_end r) = [perror_line (host true true) 2] /\
  calls (at_end r) =
    [signal SIGABRT (SIG_FUNC fn_abort_handler);
     execvp (Some "/no/such/path") ["/no/such/path"]; perror "execvp"].
Proof.
  apply (launch_failure_exits_1 (host true true) None missing_command 2).
  - reflexivity.
  - reflexivity.
Defined.

(** C7.  Whatever [signal] answers, and in particular when it fails, the
    launcher goes on to [execvp] on [argv[1]] and [argv + 1] unless a
    SIGABRT arrives first; and when none arrives at all, its calls, what
    it writes and the way it ends depend on [execvp] alone: nothing is
    written about the registration. *)
Theorem registration_result_unused (w : world) (b : bool) (s : schedule)
    (argv : list string) :
  due s = false ->
  due (tick s) = false ->
  firstn 2 (calls (at_end (launcher (registering b w) s argv))) =
    [signal SIGABRT (SIG_FUNC fn_abort_handler);
     execvp (argv1 argv) (skipn 1 argv)] /\
  let r := launcher (registering b w) None argv in
  let result := exec_outcome w (argv1 argv) (skipn 1 argv) in
  calls (at_end r) =
    signal SIGABRT (SIG_FUNC fn_abort_handler)
    :: execvp (argv1 argv) (skipn 1 argv)
    :: match result with
       | ExecFails _ => [perror "execvp"]
       | _ => []
       end /\
  stderr (at_end r) =
    match result with
    | ExecFails e => [perror_line w e]
    | _ => []
    end /\
  how r =
    match result with
    | ExecFails _ => returned_from_main 1
    | ExecFaults => killed_by SIGSEGV
    | ExecReplaces code => target_exited code
    end.
Proof.
  intros H0 H1. split.
  - exact (launcher_reaches_execvp (registering b w) s argv H0 H1).
  - intros r result. subst r result. unfold perror_line.
    destruct b; launch;
      cbn [registering signal_succeeds inherited_ignore exec_outcome
           exec_disposition strerror]; launch;
      destruct (exec_outcome w (argv1 argv) (skipn 1 argv)) as [e | | code];
      launch; repeat split.
Qed.

Lemma registration_result_unused_witness :
  firstn 2
    (calls (at_end (launcher (registering false (host true true)) None
                      missing_command))) =
    [signal SIGABRT (SIG_FUNC fn_abort_handler);
     execvp (Some "/no/such/path") ["/no/such/path"]] /\
  let r := launcher (registering false (host true true)) None
             missing_command in
  calls (at_end r) =
    [signal SIGABRT (SIG_FUNC fn_abort_handler);
     execvp (Some "/no/such/path") ["/no/such/path"]; perror "execvp"] /\
  stderr (at_end r) = [perror_line (host true true) 2] /\
  how r = returned_from_main 1.
Proof.
  apply (registration_result_unused (host true true) false None
           missing_command).
  - reflexivity.
  - reflexivity.
Defined.

(** C8.  For [launcher exe args...] that no SIGABRT interrupts before
    [execvp], the second library call is [execvp] on [exe] with the
    vector [exe :: args], and when [execvp] succeeds the process goes on
    as [exe] with exactly that vector. *)
Theorem invoke_passes_arguments (w : world) (s : schedule)
    (name exe : string) (args : list string) :
  due s = false ->
  due (tick s) = false ->
  let r := launcher w s (name :: exe :: args) in
  nth_error (calls (at_end r)) 1 = Some (execvp (Some exe) (exe :: args)) /\
  (forall code,
     exec_outcome w (Some exe) (exe :: args) = ExecReplaces code ->
     image r = Some (Some exe, exe :: args)).
Proof.
  intros H0 H1 r. subst r. split.
  - pose proof (launcher_reaches_execvp w s (name :: exe :: args) H0 H1)
      as Hcalls.
    destruct (calls (at_end (launcher w s (name :: exe :: args))))
      as [| c0 [| c1 cs]]; try discriminate Hcalls.
    cbn in Hcalls. injection Hcalls as _ ->. reflexivity.
  - intros code Hexec. revert H0 H1 Hexec.
    unfold launcher, main. cbn [argv1 nth_error skipn].
    schedule_cases s; cbn [due tick]; try discriminate; intros _ _;
      launch_all w; intro Hexec; try discriminate Hexec; reflexivity.
Qed.

Lemma invoke_passes_arguments_witness :
  let r := launcher (host true true) None aborting_command in
  nth_error (calls (at_end r)) 1 =
    Some (execvp (Some "/bin/sh") ["/bin/sh"; "-c"; "kill -ABRT $$"]) /\
  (forall code,
     exec_outcome (host true true) (Some "/bin/sh")
       ["/bin/sh"; "-c"; "kill -ABRT $$"] = ExecReplaces code ->
     image r = Some (Some "/bin/sh", ["/bin/sh"; "-c"; "kill -ABRT $$"])).
Proof.
  apply (invoke_passes_arguments (host true true) None "launcher" "/bin/sh"
           ["-c"; "kill -ABRT $$"]).
  - reflexivity.
  - reflexivity.
Defined.

(** C10.  Started with no argument, the launcher that no SIGABRT
    interrupts first still calls [signal] and then [execvp] with the
    null pointer that ends its argument vector as the file and an empty
    vector: nothing is checked, written or refused before. *)
Theorem no_argument_check (w : world) (s : schedule) (name : string) :
  due s = false ->
  due (tick s) = false ->
  argv1 [name] = None /\
  firstn 2 (calls (at_end (launcher w s [name]))) =
    [signal SIGABRT (SIG_FUNC fn_abort_handler); execvp None []].
Proof.
  intros H0 H1. split; [reflexivity |].
  exact (launcher_reaches_execvp w s [name] H0 H1).
Qed.

Lemma no_argument_check_witness :
  argv1 ["launcher"] = None /\
  firstn 2 (calls (at_end (launcher (host true true) None ["launcher"]))) =
    [signal SIGABRT (SIG_FUNC fn_abort_handler); execvp None []].
Proof.
  apply (no_argument_check (host true true) None "launcher").
  - reflexivity.
  - reflexivity.
Defined.

(** ** Further properties of the handler *)

(** X1.  When the stack holds at most 100 frames and [backtrace_symbols]
    gives its array, the handler appends to the standard error stream
    the banner, the signal number it was passed, the depth of the stack,
    one line for every frame in the order of the stack, and the closing
    banner, and ends the process with [exit(134)] whatever the signal
    number. *)
Theorem abort_handler_prints_every_frame (w : world) (sig : Z)
    (m : process) :
  (List.length (call_stack w) <= 100)%nat ->
  symbols_allocated w = true ->
  exists m',
    run w (abort_handler sig) m = Ended (called_exit 134) m' /\
    stderr m' =
      (stderr m
         ++ [banner; signal_line sig;
             count_line (List.length (call_stack w))]
         ++ map (frame_line w) (call_stack w) ++ [closing_banner])%list.
Proof.
  intros Hdepth Hsym. exists (reported w sig m).
  rewrite run_abort_handler. unfold symbols. rewrite Hsym.
  split; [reflexivity |].
  rewrite stderr_reported. unfold captured.
  now rewrite firstn_all2 by exact Hdepth.
Qed.

Lemma abort_handler_prints_every_frame_witness :
  exists m',
    run (host true true) (abort_handler 6) (start (host true true)) =
      Ended (called_exit 134) m' /\
    stderr m' =
      [banner; signal_line 6; count_line 3;
       frame_line (host true true) 4198966;
       frame_line (host true true) 4199120;
       frame_line (host true true) 4198750; closing_banner].
Proof.
  apply (abort_handler_prints_every_frame (host true true) 6
           (start (host true true))).
  - cbn. lia.
  - reflexivity.
Defined.

(** X2.  When the stack is deeper than 100 frames the handler reports
    100 frames and prints the 100 innermost ones only: with the array of
    [backtrace_symbols] it writes 104 texts in all, and the deeper
    frames are dropped without notice. *)
Theorem abort_handler_truncates_deep_stack (w : world) (sig : Z)
    (m : process) :
  (100 < List.length (call_stack w))%nat ->
  symbols_allocated w = true ->
  written m (after (run w (abort_handler sig) m)) =
    ([banner; signal_line sig; count_line 100]
       ++ map (frame_line w) (firstn 100 (call_stack w))
       ++ [closing_banner])%list /\
  List.length (written m (after (run w (abort_handler sig) m))) = 104%nat.
Proof.
  intros Hdepth Hsym.
  rewrite run_abort_handler. unfold symbols. rewrite Hsym. cbn [after].
  rewrite (written_app _ _ _ (stderr_reported w sig m)).
  assert (Hlen : List.length (captured w) = 100%nat).
  { unfold captured. rewrite length_firstn. lia. }
  rewrite Hlen. split; [reflexivity |].
  rewrite !length_app, length_map, Hlen. reflexivity.
Qed.

Lemma abort_handler_truncates_deep_stack_witness :
  let w := unwinding deep_stack (host true true) in
  written (start w) (after (run w (abort_handler 6) (start w))) =
    ([banner; signal_line 6; count_line 100]
       ++ map (frame_line w) (firstn 100 (call_stack w))
       ++ [closing_banner])%list /\
  List.length (written (start w) (after (run w (abort_handler 6) (start w))))
    = 104%nat.
Proof.
  apply (abort_handler_truncates_deep_stack
           (unwinding deep_stack (host true true)) 6
           (start (unwinding deep_stack (host true true)))).
  - vm_compute. lia.
  - reflexivity.
Defined.

(** X3.  When no frame is captured the handler still ends the process
    with [exit(134)], also when [backtrace_symbols] returned the null
    pointer: the loop makes no read, [free] gets what was returned, and
    the report is the banner, the signal line, a count of 0 and the
    closing banner. *)
Theorem abort_handler_without_frames (w : world) (sig : Z) (m : process) :
  call_stack w = [] ->
  exists m',
    run w (abort_handler sig) m = Ended (called_exit 134) m' /\
    written m m' = [banner; signal_line sig; count_line 0; closing_banner] /\
    called m m' =
      [fprintf_stderr banner; fprintf_stderr (signal_line sig);
       backtrace 100; backtrace_symbols [];
       fprintf_stderr (count_line 0);
       free (if symbols_allocated w then Some [] else None);
       fprintf_stderr closing_banner; exit 134].
Proof.
  intro Hstack. exists (reported w sig m).
  assert (Hcap : captured w = []) by now apply captured_nil.
  rewrite run_abort_handler, Hcap.
  split; [now destruct (symbols w) |]. split.
  - apply written_app. rewrite stderr_reported, Hcap. reflexivity.
  - apply called_app. rewrite calls_reported. unfold symbols.
    rewrite Hcap. now destruct (symbols_allocated w).
Qed.

Lemma abort_handler_without_frames_witness :
  let w := unwinding [] (host true false) in
  exists m',
    run w (abort_handler 6) (start w) = Ended (called_exit 134) m' /\
    written (start w) m' =
      [banner; signal_line 6; count_line 0; closing_banner] /\
    called (start w) m' =
      [fprintf_stderr banner; fprintf_stderr (signal_line 6);
       backtrace 100; backtrace_symbols [];
       fprintf_stderr (count_line 0); free None;
       fprintf_stderr closing_banner; exit 134].
Proof.
  apply (abort_handler_without_frames (unwinding [] (host true false)) 6
           (start (unwinding [] (host true false)))).
  reflexivity.
Defined.

(** ** Further properties of the launcher *)

Lemma last_app_cons {A : Type} (a b : list A) (x d : A) :
  last (a ++ x :: b)%list d = last (x :: b) d.
Proof.
  induction a as [| y a IH]; [reflexivity |].
  rewrite <- IH. cbn [app]. destruct a; reflexivity.
Qed.

Lemma filter_fprintf (f : libc -> bool) (texts : list string) :
  (forall t, f (fprintf_stderr t) = false) ->
  filter f (map fprintf_stderr texts) = [].
Proof.
  intro Hf. induction texts as [| t ts IH]; cbn; [reflexivity |].
  now rewrite Hf.
Qed.

(** X4.  A SIGABRT that arrives after [signal] installed the handler and
    before [execvp] is called is reported by the handler and ends the
    process with status 134: [execvp] is never called and no program is
    started. *)
Theorem abort_while_armed (w : world) (argv : list string) :
  signal_succeeds w = true ->
  symbols_allocated w = true ->
  let r := launcher w (Some 1%nat) argv in
  exit_status r = Exited 134 /\
  image r = None /\
  banner_shown (at_end r) = true /\
  filter is_execvp (calls (at_end r)) = [] /\
  last (calls (at_end r)) (exit 0) = exit 134.
Proof.
  intros Hsig Hsym r. subst r. unfold exit_status.
  launch. rewrite Hsig. launch.
  rewrite run_abort_handler. unfold symbols. rewrite Hsym.
  cbn [how image at_end status_of].
  rewrite banner_shown_reported, calls_reported.
  repeat split.
  - rewrite !filter_app, filter_fprintf by reflexivity.
    destruct (inherited_ignore w); reflexivity.
  - now rewrite !app_assoc, last_app_cons.
Qed.

Lemma abort_while_armed_witness :
  let r := launcher (host true true) (Some 1%nat) aborting_command in
  exit_status r = Exited 134 /\
  image r = None /\
  banner_shown (at_end r) = true /\
  filter is_execvp (calls (at_end r)) = [] /\
  last (calls (at_end r)) (exit 0) = exit 134.
Proof.
  apply (abort_while_armed (host true true) aborting_command).
  - reflexivity.
  - reflexivity.
Defined.

(** X5.  When [execvp] succeeds and no SIGABRT arrives, the code of
    [main] after [execvp] never runs: [perror] is not called, nothing is
    written to the standard error stream by the launcher, and the
    process ends with the target's own exit status. *)
Theorem target_exit_passes_through (w : world) (s : schedule)
    (argv : list string) (code : Z) :
  exec_outcome w (argv1 argv) (skipn 1 argv) = ExecReplaces code ->
  abort_delivered (at_end (launcher w s argv)) = false ->
  let r := launcher w s argv in
  how r = target_exited code /\
  exit_status r = Exited (Z.land code 255) /\
  image r = Some (argv1 argv, skipn 1 argv) /\
  stderr (at_end r) = [] /\
  calls (at_end r) =
    [signal SIGABRT (SIG_FUNC fn_abort_handler);
     execvp (argv1 argv) (skipn 1 argv)].
Proof.
  intros Hexec Hquiet r. subst r. revert Hexec Hquiet.
  unfold exit_status.
  schedule_cases s; launch_all w;
    rewrite ?abort_delivered_headed, ?abort_delivered_reported;
    intros Hexec Hquiet; try discriminate Hexec; try discriminate Hquiet;
    injection Hexec as <-; repeat split.
Qed.

Lemma target_exit_passes_through_witness :
  let r := launcher (host true true) None failing_command in
  how r = target_exited 1 /\
  exit_status r = Exited 1 /\
  image r = Some (Some "/bin/false", ["/bin/false"]) /\
  stderr (at_end r) = [] /\
  calls (at_end r) =
    [signal SIGABRT (SIG_FUNC fn_abort_handler);
     execvp (Some "/bin/false") ["/bin/false"]].
Proof.
  apply (target_exit_passes_through (host true true) None failing_command 1).
  - reflexivity.
  - reflexivity.
Defined.

(** X6.  [main] returns only the value 1, and only on the path where
    [execvp] failed and [perror] reported the error: whenever the
    process ends by the return of [main], no program was started and the
    line of [perror] for the error of [execvp] is on the standard error
    stream. *)
Theorem main_returns_only_after_failed_exec (w : world) (s : schedule)
    (argv : list string) (n : Z) :
  how (launcher w s argv) = returned_from_main n ->
  let r := launcher w s argv in
  n = 1 /\
  image r = None /\
  exists e,
    exec_outcome w (argv1 argv) (skipn 1 argv) = ExecFails e /\
    stderr (at_end r) = [perror_line w e].
Proof.
  intros Hhow r. subst r. revert Hhow. unfold perror_line.
  schedule_cases s; launch_all w; intro Hhow; try discriminate Hhow;
    injection Hhow as <-; repeat split; eexists; split; reflexivity.
Qed.

Lemma main_returns_only_after_failed_exec_witness :
  let r := launcher (host true true) None missing_command in
  1 = 1 /\
  image r = None /\
  exists e,
    exec_outcome (host true true) (argv1 missing_command)
      (skipn 1 missing_command) = ExecFails e /\
    stderr (at_end r) = [perror_line (host true true) e].
Proof.
  apply (main_returns_only_after_failed_exec (host true true) None
           missing_command 1).
  reflexivity.
Defined.

(** X7.  The launcher's own code never ends the process with status 0:
    a run that ends with status 0 is a run in which [execvp] succeeded
    on [argv[1]] and [argv + 1] and the target itself exited with a
    status whose low eight bits are 0. *)
Theorem status_zero_only_from_target (w : world) (s : schedule)
    (argv : list string) :
  exit_status (launcher w s argv) = Exited 0 ->
  exists code,
    how (launcher w s argv) = target_exited code /\
    Z.land code 255 = 0 /\
    exec_outcome w (argv1 argv) (skipn 1 argv) = ExecReplaces code /\
    image (launcher w s argv) = Some (argv1 argv, skipn 1 argv).
Proof.
  unfold exit_status.
  schedule_cases s; launch_all w; cbn [status_of]; intro H;
    try discriminate H;
    injection H as H; eexists; repeat split; assumption.
Qed.

Lemma status_zero_only_from_target_witness :
  exists code,
    how (launcher (host true true) None aborting_command)
      = target_exited code /\
    Z.land code 255 = 0 /\
    exec_outcome (host true true) (argv1 aborting_command)
      (skipn 1 aborting_command) = ExecReplaces code /\
    image (launcher (host true true) None aborting_command)
      = Some (argv1 aborting_command, skipn 1 aborting_command).
Proof.
  apply (status_zero_only_from_target (host true true) None
           aborting_command).
  reflexivity.
Defined.

(** X8.  The launcher is a single attempt: in every run, whenever
    SIGABRT arrives, [signal] is called at most once, [execvp] at most
    once, and [perror] at most as often as [execvp]. *)
Theorem single_attempt (w : world) (s : schedule) (argv : list string) :
  let cs := calls (at_end (launcher w s argv)) in
  (List.length (filter is_signal cs) <= 1)%nat /\
  (List.length (filter is_execvp cs) <= 1)%nat /\
  (List.length (filter is_perror cs)
   <= List.length (filter is_execvp cs))%nat.
Proof.
  intro cs. subst cs.
  schedule_cases s; launch_all w;
    rewrite ?calls_headed, ?calls_reported;
    rewrite ?filter_app, ?filter_fprintf by reflexivity;
    cbn; repeat split; lia.
Qed.

(** X9.  Under the rule of POSIX for image replacement the launcher does
    not hand an ignored SIGABRT on to the target: when it was started
    with SIGABRT ignored and [signal] succeeds, the target runs with the
    default action, and a SIGABRT that would have been ignored kills it;
    the ignored disposition survives only when [signal] failed. *)
Theorem ignored_abort_not_inherited (w : world) (argv : list string)
    (code : Z) :
  inherited_ignore w = true ->
  (forall d, exec_disposition w d = posix_exec_disposition d) ->
  exec_outcome w (argv1 argv) (skipn 1 argv) = ExecReplaces code ->
  disposition (at_end (launcher w None argv)) =
    (if signal_succeeds w then SIG_DFL else SIG_IGN) /\
  how (launcher w (Some 2%nat) argv) =
    (if signal_succeeds w then killed_by SIGABRT else target_exited code).
Proof.
  intros Hign Hposix Hexec.
  split; launch; rewrite Hign; destruct (signal_succeeds w); launch;
    rewrite Hexec; launch; rewrite Hposix; reflexivity.
Qed.

Lemma ignored_abort_not_inherited_witness :
  let w := inheriting true (host true true) in
  disposition (at_end (launcher w None aborting_command)) = SIG_DFL /\
  how (launcher w (Some 2%nat) aborting_command) = killed_by SIGABRT.
Proof.
  apply (ignored_abort_not_inherited (inheriting true (host true true))
           aborting_command 0).
  - reflexivity.
  - intro d. reflexivity.
  - reflexivity.
Defined.

(** X10.  The code that the handler interrupted never runs again: in
    every run in which SIGABRT met [abort_handler], the last library
    call of the process is the handler's, either [exit(134)], which ends
    the process, or the [fprintf] before the read that faults. *)
Theorem caught_abort_is_final (w : world) (s : schedule)
    (argv : list string) :
  abort_caught (at_end (launcher w s argv)) = true ->
  let r := launcher w s argv in
  (how r = called_exit 134 /\
   last (calls (at_end r)) (exit 0) = exit 134) \/
  (how r = killed_by SIGSEGV /\
   exists text, last (calls (at_end r)) (exit 0) = fprintf_stderr text).
Proof.
  intros H r. subst r. revert H.
  schedule_cases s; launch_all w;
    rewrite ?abort_caught_headed, ?abort_caught_reported;
    cbn [abort_caught delivered arrive]; intro H; try discriminate H;
    rewrite ?calls_headed, ?calls_reported.
  all: try (left; split; [reflexivity |];
            now rewrite !app_assoc, last_app_cons).
  all: right; split; [reflexivity |]; eexists;
    rewrite last_app_cons; reflexivity.
Qed.

Lemma caught_abort_is_final_witness :
  let r := launcher (host true false) (Some 1%nat) aborting_command in
  (how r = called_exit 134 /\
   last (calls (at_end r)) (exit 0) = exit 134) \/
  (how r = killed_by SIGSEGV /\
   exists text, last (calls (at_end r)) (exit 0) = fprintf_stderr text).
Proof.
  apply (caught_abort_is_final (host true false) (Some 1%nat)
           aborting_command).
  reflexivity.
Defined.
